(** * PfeifferMaxigauge: a shallow embedding of the serial handshake engine

    This development models [src/PfeifferMaxigauge.py]: the two-phase
    ACK/ENQ [query], the best-effort pressure decode of [read_sensor], and
    the channel mask encoding of [enable_sensor] / [disable_sensor].

    The VISA instrument is modelled by an explicit session state: the reply
    lines the device still has to send (already stripped of the read
    terminator "\r\n"), the trace of transport writes and reads, and the
    diagnostics emitted through [debug_stream] / [error_stream].  Python
    exceptions are the [Err] branch of a result type. *)

From Stdlib Require Import ZArith List Bool Lia.
From Stdlib Require Import Strings.String Strings.Ascii.
From Stdlib Require Import Floats.SpecFloat.
Import ListNotations.

Open Scope string_scope.

(** ** Python values and exceptions *)

(** The exceptions the modelled code can raise. [VisaIOError] is the
    transport timeout raised by pyvisa when no reply line arrives. *)
Inductive exn : Type :=
| IndexError
| ValueError
| VisaIOError.

Inductive result (A : Type) : Type :=
| Ok (a : A)
| Err (e : exn).
Arguments Ok {A} a.
Arguments Err {A} e.

(** A Python [float]: IEEE 754 binary64 (53 bits of precision, emax 1024). *)
Definition double : Type := spec_float.

(** [math.nan] *)
Definition nan : double := S754_nan.

Definition is_finite (x : double) : bool :=
  match x with
  | S754_zero _ | S754_finite _ _ _ => true
  | S754_infinity _ | S754_nan => false
  end.

(** ** Strings *)

Definition chr (n : nat) : string := String (ascii_of_nat n) EmptyString.

(** Protocol control characters (module constants of the source). *)
Definition ACK : string := chr 6.
Definition NAK : string := chr 21.
Definition ENQ : string := chr 5.
Definition ETX : string := chr 3.

(** Python's [needle in hay] for strings: substring test. *)
Fixpoint py_contains (needle hay : string) : bool :=
  prefix needle hay ||
  match hay with
  | EmptyString => false
  | String _ rest => py_contains needle rest
  end.

(** Python's [s.split(sep)] for a one-character separator: the pieces
    between separators, the empty string giving [[""]]. *)
Fixpoint py_split (sep : ascii) (s : string) : list string :=
  match s with
  | EmptyString => [EmptyString]
  | String c rest =>
      match py_split sep rest with
      | [] => [String c EmptyString]  (* unreachable: [py_split] is never empty *)
      | piece :: pieces =>
          if Ascii.eqb c sep then EmptyString :: piece :: pieces
          else String c piece :: pieces
      end
  end.

(** Python's [sep.join(items)]. *)
Definition py_join (sep : string) (items : list string) : string :=
  String.concat sep items.

(** Decimal digits of a natural number, most significant first. *)
Fixpoint digits_rev (fuel : nat) (n : N) : string :=
  match fuel with
  | O => EmptyString
  | S fuel' =>
      let d := N.modulo n 10 in
      let q := N.div n 10 in
      let c := String (ascii_of_N (48 + d)) EmptyString in
      if (q =? 0)%N then c else digits_rev fuel' q ++ c
  end.

Definition str_N (n : N) : string := digits_rev (N.to_nat (N.log2 n) + 1) n.

(** Python's [str(i)] for an integer. *)
Definition py_str (z : Z) : string :=
  match z with
  | Z0 => "0"
  | Zpos p => str_N (Npos p)
  | Zneg p => "-" ++ str_N (Npos p)
  end.

(** [f"{n:02X}"] for a character code below 256. *)
Definition hex_digit (n : N) : ascii :=
  if (n <? 10)%N then ascii_of_N (48 + n) else ascii_of_N (55 + n).

Definition hex2 (c : ascii) : string :=
  let n := N_of_ascii c in
  String (hex_digit (N.div n 16)) (String (hex_digit (N.modulo n 16)) EmptyString).

Fixpoint chars (s : string) : list ascii :=
  match s with
  | EmptyString => []
  | String c rest => c :: chars rest
  end.

(** [hexformat(text)]: the two-digit upper-case hex code of every
    character, joined by single spaces. *)
Definition hexformat (text : string) : string :=
  py_join " " (map hex2 (chars text)).

(** ** The instrument session and the state monad *)

Inductive io_event : Type :=
| Wrote (line : string)      (** [inst.write(line)]: line plus "\r" *)
| WroteRaw (bytes : string)  (** [inst.write_raw(bytes)]: no terminator *)
| Got (line : string).       (** one line returned by [inst.read()] *)

Inductive diag : Type :=
| Debug (msg : string)
| Error (msg : string).

Record session : Type := mk_session {
  inbox : list string;   (** reply lines the device will still send *)
  io : list io_event;    (** transport trace, oldest first *)
  diags : list diag      (** emitted diagnostics, oldest first *)
}.

Definition M (A : Type) : Type := session -> result A * session.

Definition ret {A} (a : A) : M A := fun s => (Ok a, s).

Definition bind {A B} (m : M A) (f : A -> M B) : M B :=
  fun s => match m s with
           | (Ok a, s') => f a s'
           | (Err e, s') => (Err e, s')
           end.

Definition raise {A} (e : exn) : M A := fun s => (Err e, s).

Definition lift {A} (r : result A) : M A :=
  match r with Ok a => ret a | Err e => raise e end.

Notation "x <- m ;; k" := (bind m (fun x => k))
  (at level 61, m at next level, right associativity).
Notation "m ;;; k" := (bind m (fun _ => k))
  (at level 61, right associativity).

Definition log_io (ev : io_event) (s : session) : session :=
  mk_session (inbox s) (io s ++ [ev])%list (diags s).

Definition log_diag (d : diag) (s : session) : session :=
  mk_session (inbox s) (io s) (diags s ++ [d])%list.

Definition debug_stream (msg : string) : M unit :=
  fun s => (Ok tt, log_diag (Debug msg) s).

Definition error_stream (msg : string) : M unit :=
  fun s => (Ok tt, log_diag (Error msg) s).

Definition inst_write (line : string) : M unit :=
  fun s => (Ok tt, log_io (Wrote line) s).

Definition inst_write_raw (bytes : string) : M unit :=
  fun s => (Ok tt, log_io (WroteRaw bytes) s).

(** [inst.read()]: the next reply line; a timeout when none arrives. *)
Definition inst_read : M string :=
  fun s => match inbox s with
           | [] => (Err VisaIOError, s)
           | l :: rest => (Ok l, mk_session rest (io s ++ [Got l]) (diags s))
           end.

(** pyvisa's [inst.query(msg)]: write, then read. *)
Definition inst_query (msg : string) : M string :=
  inst_write msg ;;; inst_read.

(** ** [PfeifferMaxigauge.query] *)

Definition query (argin : string) : M string :=
  debug_stream ("query: " ++ argin) ;;;
  ans <- inst_query argin ;;
  let ans_hex := hexformat ans in
  debug_stream ("reply: " ++ ans ++ " (" ++ ans_hex ++ ")") ;;;
  let reply := "" in
  if py_contains ACK ans then
    debug_stream "Received ACK, proceeding with ENQ" ;;;
    inst_write_raw ENQ ;;;
    reply <- inst_read ;;
    let ans_hex := hexformat reply in
    debug_stream ("reply: " ++ reply ++ " (" ++ ans_hex ++ ")") ;;;
    ret reply
  else if py_contains NAK ans then
    error_stream ("Query resulted in NAK: " ++ argin) ;;;
    ret reply
  else
    error_stream ("Did not receive ACK on message, got " ++ ans_hex ++ " instead") ;;;
    ret reply.

(** ** The channel mask: [enable_sensor] and [disable_sensor] *)

(** Python's [lst[i] = v]: a negative index counts from the end; an index
    still outside the list raises [IndexError]. *)
Fixpoint set_nth {A} (l : list A) (n : nat) (v : A) : list A :=
  match l, n with
  | [], _ => []
  | _ :: t, O => v :: t
  | x :: t, S n' => x :: set_nth t n' v
  end.

Definition py_setitem {A} (l : list A) (i : Z) (v : A) : result (list A) :=
  let len := Z.of_nat (List.length l) in
  let j := if (i <? 0)%Z then (i + len)%Z else i in
  if ((j <? 0)%Z || (len <=? j)%Z)%bool then Err IndexError
  else Ok (set_nth l (Z.to_nat j) v).

(** The shared body of both commands:
    [mask = 6 * [0]; mask[argin - 1] = code;
     mask_str = ','.join([str(d) for d in mask]); self.query(f"SEN,{mask_str}")] *)
Definition sen_command (argin code : Z) : result string :=
  match py_setitem (repeat 0%Z 6) (argin - 1) code with
  | Err e => Err e
  | Ok mask =>
      let mask_str := py_join "," (map py_str mask) in
      Ok ("SEN," ++ mask_str)
  end.

Definition enable_sensor (argin : Z) : M unit :=
  cmd <- lift (sen_command argin 2) ;;
  query cmd ;;;
  ret tt.

Definition disable_sensor (argin : Z) : M unit :=
  cmd <- lift (sen_command argin 1) ;;
  query cmd ;;;
  ret tt.

(** ** [PfeifferMaxigauge.read_sensor] *)

(** The decode is written for any model [float] of Python's [float()] on
    strings ([Err ValueError] for a rejected literal); [py_float] below is
    the one used for concrete replies. *)
Section ReadSensor.
Variable float : string -> result double.

(** The [try] body: [status, pressure = ans.split(',')] (unpacking a list
    of another length raises [ValueError]); [pressure = float(pressure)]. *)
Definition read_sensor_body (ans : string) : result double :=
  match py_split "," ans with
  | [status; pressure] => float pressure
  | _ => Err ValueError
  end.

(** [except Exception: pressure = nan]. *)
Definition read_sensor_decode (ans : string) : double :=
  match read_sensor_body ans with
  | Ok pressure => pressure
  | Err _ => nan
  end.

Definition read_sensor (argin : Z) : M double :=
  ans <- query ("PR" ++ py_str argin) ;;
  ret (read_sensor_decode ans).
End ReadSensor.

(** ** Python's [float(text)] on binary64 *)

(** [float()] strips leading and trailing whitespace (Unicode whitespace,
    here the Latin-1 range of it), takes an optional sign, and accepts
    [inf], [infinity] and [nan] in any case, or a decimal literal
    [digits [. digits] [e [sign] digits]] whose digit runs may hold single
    underscores between digits; anything else raises [ValueError].  A
    decimal literal is rounded to nearest, ties to even. *)
Definition prec : Z := 53.
Definition emax : Z := 1024.

Definition is_space (c : ascii) : bool :=
  let n := nat_of_ascii c in
  (((9 <=? n) && (n <=? 13)) || ((28 <=? n) && (n <=? 32)) ||
  (n =? 133) || (n =? 160))%nat.

Fixpoint drop_spaces (l : list ascii) : list ascii :=
  match l with
  | c :: r => if is_space c then drop_spaces r else l
  | [] => []
  end.

Definition py_strip (l : list ascii) : list ascii :=
  rev (drop_spaces (rev (drop_spaces l))).

Definition is_digit (c : ascii) : bool :=
  let n := nat_of_ascii c in ((48 <=? n) && (n <=? 57))%nat.

Definition digit_val (c : ascii) : N := (N_of_ascii c - 48)%N.

Definition lower (c : ascii) : ascii :=
  let n := nat_of_ascii c in
  if ((65 <=? n) && (n <=? 90))%nat then ascii_of_nat (n + 32) else c.

(** The rest of a digit run after its first digit: value, number of
    digits, remaining input. *)
Fixpoint digitpart_rest (l : list ascii) (acc : N) (n : nat) : N * nat * list ascii :=
  match l with
  | c :: r =>
      if is_digit c then digitpart_rest r (acc * 10 + digit_val c)%N (S n)
      else if Ascii.eqb c "_"%char then
        match r with
        | d :: r' =>
            if is_digit d then digitpart_rest r' (acc * 10 + digit_val d)%N (S n)
            else (acc, n, l)
        | [] => (acc, n, l)
        end
      else (acc, n, l)
  | [] => (acc, n, [])
  end.

Definition digitpart (l : list ascii) : option (N * nat * list ascii) :=
  match l with
  | c :: r => if is_digit c then Some (digitpart_rest r (digit_val c) 1) else None
  | [] => None
  end.

Definition take_sign (l : list ascii) : bool * list ascii :=
  match l with
  | c :: r =>
      if Ascii.eqb c "-"%char then (true, r)
      else if Ascii.eqb c "+"%char then (false, r)
      else (false, l)
  | [] => (false, l)
  end.

Definition exponent_part (l : list ascii) : option Z :=
  match l with
  | [] => Some 0%Z
  | c :: r =>
      if Ascii.eqb (lower c) "e"%char then
        let '(neg, r1) := take_sign r in
        match digitpart r1 with
        | Some (v, _, []) => Some (if neg then Z.opp (Z.of_N v) else Z.of_N v)
        | _ => None
        end
      else None
  end.

(** A decimal literal as [m * 10 ^ e]. *)
Definition decimal_literal (l : list ascii) : option (N * Z) :=
  let '(ip, ni, l1) :=
    match digitpart l with Some r => r | None => (0%N, O, l) end in
  let '(fp, nf, l2) :=
    match l1 with
    | c :: r =>
        if Ascii.eqb c "."%char then
          match digitpart r with Some x => x | None => (0%N, O, r) end
        else (0%N, O, l1)
    | [] => (0%N, O, l1)
    end in
  if (ni + nf =? 0)%nat then None
  else match exponent_part l2 with
       | Some e => Some ((ip * 10 ^ N.of_nat nf + fp)%N, (e - Z.of_nat nf)%Z)
       | None => None
       end.

(** The binary64 value nearest to [(-1)^neg * m * 10^e]. *)
Definition decimal_to_double (neg : bool) (m : N) (e : Z) : double :=
  match m with
  | N0 => S754_zero neg
  | Npos p =>
      if (0 <=? e)%Z then
        match (Zpos p * 10 ^ e)%Z with
        | Zpos q => binary_round prec emax neg q 0
        | _ => S754_nan  (* unreachable: the product is positive *)
        end
      else
        let '(q, e', loc) := SFdiv_core_binary prec emax (Zpos p) 0 (10 ^ (- e)) 0 in
        binary_round_aux prec emax neg q e' loc
  end.

Definition py_float (text : string) : result double :=
  let '(neg, body) := take_sign (py_strip (chars text)) in
  let low := map lower body in
  if list_eq_dec ascii_dec low (chars "inf") then Ok (S754_infinity neg)
  else if list_eq_dec ascii_dec low (chars "infinity") then Ok (S754_infinity neg)
  else if list_eq_dec ascii_dec low (chars "nan") then Ok nan
  else match decimal_literal body with
       | Some (m, e) => Ok (decimal_to_double neg m e)
       | None => Err ValueError
       end.

(** ** Specification-side helpers *)

(** The mask the spec describes: six slots, [code] at index [channel - 1],
    zero elsewhere. *)
Definition mask_spec (channel code : Z) : list Z :=
  map (fun i => if (Z.of_nat i =? channel - 1)%Z then code else 0%Z) (seq 0 6).

(** A mask entry between 0 and 9 as its single decimal digit. *)
Definition digit_str (d : Z) : string :=
  String (ascii_of_nat (48 + Z.to_nat d)) EmptyString.

Definition sen_payload (channel code : Z) : string :=
  "SEN," ++ py_join "," (map digit_str (mask_spec channel code)).

(** The command lines written to the instrument, in order. *)
Fixpoint sent_lines (t : list io_event) : list string :=
  match t with
  | [] => []
  | Wrote l :: t' => l :: sent_lines t'
  | _ :: t' => sent_lines t'
  end.

(** ** Lemmas about the string primitives *)

Lemma prefix_char (c : ascii) (s : string) :
  prefix (String c EmptyString) (String c s) = true.
Proof. simpl. destruct (ascii_dec c c); [destruct s; reflexivity | contradiction]. Qed.

Lemma py_contains_char (c : ascii) (pre suf : string) :
  py_contains (String c EmptyString) (pre ++ String c suf) = true.
Proof.
  induction pre as [| a pre IH]; simpl.
  - destruct (ascii_dec c c); [destruct suf; reflexivity | contradiction].
  - rewrite IH. apply orb_true_r.
Qed.

Lemma py_split_not_nil (sep : ascii) (s : string) : py_split sep s <> [].
Proof.
  induction s as [| c s IH]; simpl; [discriminate |].
  destruct (py_split sep s); [contradiction |].
  destruct (Ascii.eqb c sep); discriminate.
Qed.

Lemma py_split_app (sep : ascii) (a b : string) :
  py_split sep (a ++ String sep b) = (py_split sep a ++ py_split sep b)%list.
Proof.
  induction a as [| c a IH]; simpl.
  - rewrite Ascii.eqb_refl.
    destruct (py_split sep b) eqn:E; [exfalso; exact (py_split_not_nil sep b E) |].
    reflexivity.
  - rewrite IH.
    destruct (py_split sep a) as [| p ps] eqn:E;
      [exfalso; exact (py_split_not_nil sep a E) |].
    simpl. destruct (Ascii.eqb c sep); reflexivity.
Qed.

Lemma py_split_no_sep (sep : ascii) (s : string) :
  ~ In sep (chars s) -> py_split sep s = [s].
Proof.
  induction s as [| c s IH]; simpl; intros H; [reflexivity |].
  rewrite IH by tauto.
  destruct (Ascii.eqb c sep) eqn:E; [| reflexivity].
  apply Ascii.eqb_eq in E. subst. tauto.
Qed.

Lemma py_split_length (sep : ascii) (s : string) : 1 <= List.length (py_split sep s).
Proof.
  destruct (py_split sep s) eqn:E; [exfalso; exact (py_split_not_nil sep s E) |].
  simpl. lia.
Qed.

(** [read_sensor] runs [query] and decodes its result. *)
Lemma read_sensor_query (float : string -> result double) (ch : Z) (s s' : session)
  (ans : string) :
  query ("PR" ++ py_str ch) s = (Ok ans, s') ->
  read_sensor float ch s = (Ok (read_sensor_decode float ans), s').
Proof. intros H. unfold read_sensor, bind. rewrite H. reflexivity. Qed.

(** ** Claims about [query] *)

(** C1: when the first reply line holds the ACK byte anywhere (whatever
    else it holds, NAK included), [query] writes the command, reads that
    line, writes one raw ENQ byte, reads one more line and returns it. *)
Theorem query_ack_returns_payload (cmd pre suf payload : string)
  (rest : list string) (t : list io_event) (d : list diag) :
  let ans := pre ++ ACK ++ suf in
  query cmd (mk_session (ans :: payload :: rest) t d) =
  (Ok payload,
   mk_session rest
     (t ++ [Wrote cmd; Got ans; WroteRaw ENQ; Got payload])
     (d ++ [Debug ("query: " ++ cmd);
            Debug ("reply: " ++ ans ++ " (" ++ hexformat ans ++ ")");
            Debug "Received ACK, proceeding with ENQ";
            Debug ("reply: " ++ payload ++ " (" ++ hexformat payload ++ ")")])).
Proof.
  intros ans.
  assert (Hack : py_contains ACK ans = true) by apply py_contains_char.
  clearbody ans.
  unfold query, inst_query.
  unfold bind, debug_stream, inst_write, inst_read, inst_write_raw, ret,
    log_io, log_diag.
  cbn -[py_contains hexformat ACK NAK ENQ].
  rewrite Hack. cbn -[hexformat ENQ]. rewrite <- !app_assoc. reflexivity.
Qed.

(** C2: when the first reply line holds no ACK byte, [query] returns the
    empty string after one write and one read: no ENQ, no second read.
    The two cases differ only in the error diagnostic: the failing
    command after a NAK, the hex dump of the reply otherwise. *)
Theorem query_no_ack_returns_empty (cmd ans : string)
  (rest : list string) (t : list io_event) (d : list diag) :
  py_contains ACK ans = false ->
  query cmd (mk_session (ans :: rest) t d) =
  (Ok "",
   mk_session rest
     (t ++ [Wrote cmd; Got ans])
     (d ++ [Debug ("query: " ++ cmd);
            Debug ("reply: " ++ ans ++ " (" ++ hexformat ans ++ ")");
            if py_contains NAK ans
            then Error ("Query resulted in NAK: " ++ cmd)
            else Error ("Did not receive ACK on message, got " ++ hexformat ans
                        ++ " instead")])).
Proof.
  intros Hack. unfold query, inst_query.
  unfold bind, debug_stream, error_stream, inst_write, inst_read, ret,
    log_io, log_diag.
  cbn -[py_contains hexformat ACK NAK].
  rewrite Hack.
  destruct (py_contains NAK ans); cbn -[hexformat]; rewrite <- !app_assoc;
    reflexivity.
Qed.

Lemma query_no_ack_returns_empty_witness :
  py_contains ACK NAK = false /\
  query "PR3" (mk_session [NAK] [] []) =
  (Ok "",
   mk_session [] [Wrote "PR3"; Got NAK]
     [Debug ("query: " ++ "PR3");
      Debug ("reply: " ++ NAK ++ " (" ++ hexformat NAK ++ ")");
      Error ("Query resulted in NAK: " ++ "PR3")]).
Proof.
  split; [reflexivity |].
  exact (query_no_ack_returns_empty "PR3" NAK [] [] [] eq_refl).
Defined.

(** ** Claims about [read_sensor] *)

Lemma append_empty_r (s : string) : s ++ "" = s.
Proof. induction s as [| c s IH]; simpl; [reflexivity | rewrite IH; reflexivity]. Qed.

Lemma py_split_two_fields (status value : string) :
  ~ In ","%char (chars status) -> ~ In ","%char (chars value) ->
  py_split "," (status ++ "," ++ value) = [status; value].
Proof.
  intros Hs Hv. change ("," ++ value) with (String ","%char value).
  rewrite py_split_app, (py_split_no_sep _ status Hs), (py_split_no_sep _ value Hv).
  reflexivity.
Qed.

Lemma read_sensor_decode_many_fields (float : string -> result double) (ans : string) :
  3 <= List.length (py_split "," ans) -> read_sensor_decode float ans = nan.
Proof.
  intros H. unfold read_sensor_decode, read_sensor_body.
  destruct (py_split "," ans) as [| x [| y [| z zs]]]; simpl in H; try lia.
  reflexivity.
Qed.

Ltac no_comma := simpl; intuition discriminate.

(** C3: a reply ["<status>,<value>"] with exactly one comma whose second
    field [float()] accepts decodes to exactly the value [float()] gives. *)
Theorem read_sensor_two_field_value (float : string -> result double) (ch : Z)
  (s s' : session) (status value : string) (x : double) :
  ~ In ","%char (chars status) -> ~ In ","%char (chars value) ->
  float value = Ok x ->
  query ("PR" ++ py_str ch) s = (Ok (status ++ "," ++ value), s') ->
  read_sensor float ch s = (Ok x, s').
Proof.
  intros Hs Hv Hx Hq. rewrite (read_sensor_query float ch s s' _ Hq).
  unfold read_sensor_decode, read_sensor_body.
  rewrite (py_split_two_fields status value Hs Hv), Hx. reflexivity.
Qed.

Lemma read_sensor_two_field_value_witness :
  let s := mk_session [ACK ++ "PR1"; "0,1.234e-05"] [] [] in
  (~ In ","%char (chars "0") /\ ~ In ","%char (chars "1.234e-05") /\
   py_float "1.234e-05" = Ok (S754_finite false 7284250299826428 (-69)) /\
   query ("PR" ++ py_str 1) s = (Ok ("0" ++ "," ++ "1.234e-05"), snd (query "PR1" s))) /\
  read_sensor py_float 1 s = (Ok (S754_finite false 7284250299826428 (-69)),
                              snd (query "PR1" s)).
Proof.
  intros s.
  assert (Hs : ~ In ","%char (chars "0")) by no_comma.
  assert (Hv : ~ In ","%char (chars "1.234e-05")) by no_comma.
  assert (Hx : py_float "1.234e-05" = Ok (S754_finite false 7284250299826428 (-69)))
    by (vm_compute; reflexivity).
  assert (Hq : query ("PR" ++ py_str 1) s = (Ok ("0" ++ "," ++ "1.234e-05"),
                                             snd (query "PR1" s)))
    by (vm_compute; reflexivity).
  split; [tauto |].
  exact (read_sensor_two_field_value py_float 1 s _ "0" "1.234e-05" _ Hs Hv Hx Hq).
Defined.

(** C4: an empty reply, a reply with no comma, or a reply whose second
    field [float()] rejects decodes to NaN, and no exception escapes. *)
Theorem read_sensor_undecodable_nan (float : string -> result double) (ch : Z)
  (s s' : session) (ans : string) :
  (ans = "" \/ ~ In ","%char (chars ans) \/
   exists status value tail e,
     ~ In ","%char (chars status) /\ ~ In ","%char (chars value) /\
     (tail = "" \/ exists t, tail = String ","%char t) /\
     ans = status ++ "," ++ value ++ tail /\ float value = Err e) ->
  query ("PR" ++ py_str ch) s = (Ok ans, s') ->
  read_sensor float ch s = (Ok nan, s').
Proof.
  intros Hans Hq. rewrite (read_sensor_query float ch s s' _ Hq). f_equal. f_equal.
  destruct Hans as [-> | [Hno | (status & value & tail & e & Hs & Hv & Ht & -> & He)]].
  - reflexivity.
  - unfold read_sensor_decode, read_sensor_body. rewrite (py_split_no_sep _ ans Hno).
    reflexivity.
  - destruct Ht as [-> | (t & ->)].
    + rewrite append_empty_r.
      unfold read_sensor_decode, read_sensor_body.
      rewrite (py_split_two_fields status value Hs Hv), He. reflexivity.
    + apply read_sensor_decode_many_fields.
      change ("," ++ (value ++ String ","%char t)) with
        (String ","%char (value ++ String ","%char t)).
      rewrite !py_split_app, (py_split_no_sep _ status Hs), (py_split_no_sep _ value Hv).
      simpl. pose proof (py_split_length ","%char t). lia.
Qed.

Lemma read_sensor_undecodable_nan_witness :
  let s := mk_session [NAK] [] [] in
  ("" = "" /\ query ("PR" ++ py_str 3) s = (Ok "", snd (query "PR3" s))) /\
  read_sensor py_float 3 s = (Ok nan, snd (query "PR3" s)).
Proof.
  intros s.
  assert (Hq : query ("PR" ++ py_str 3) s = (Ok "", snd (query "PR3" s)))
    by (vm_compute; reflexivity).
  split; [split; [reflexivity | exact Hq] |].
  exact (read_sensor_undecodable_nan py_float 3 s _ "" (or_introl eq_refl) Hq).
Defined.

(** C10: a reply with two or more commas decodes to NaN, whatever its
    fields: unpacking three or more pieces into two names fails. *)
Theorem read_sensor_extra_fields_nan (float : string -> result double) (ch : Z)
  (s s' : session) (a b c : string) :
  query ("PR" ++ py_str ch) s = (Ok (a ++ "," ++ b ++ "," ++ c), s') ->
  read_sensor float ch s = (Ok nan, s').
Proof.
  intros Hq. rewrite (read_sensor_query float ch s s' _ Hq).
  do 2 f_equal. apply read_sensor_decode_many_fields.
  change ("," ++ (b ++ "," ++ c)) with (String ","%char (b ++ String ","%char c)).
  rewrite !py_split_app, !length_app.
  pose proof (py_split_length ","%char a).
  pose proof (py_split_length ","%char b).
  pose proof (py_split_length ","%char c).
  lia.
Qed.

Lemma read_sensor_extra_fields_nan_witness :
  let s := mk_session [ACK; "1,2,3"] [] [] in
  query ("PR" ++ py_str 2) s = (Ok ("1" ++ "," ++ "2" ++ "," ++ "3"), snd (query "PR2" s)) /\
  read_sensor py_float 2 s = (Ok nan, snd (query "PR2" s)).
Proof.
  intros s.
  assert (Hq : query ("PR" ++ py_str 2) s =
               (Ok ("1" ++ "," ++ "2" ++ "," ++ "3"), snd (query "PR2" s)))
    by (vm_compute; reflexivity).
  split; [exact Hq |].
  exact (read_sensor_extra_fields_nan py_float 2 s _ "1" "2" "3" Hq).
Defined.

(** C7 (as stated): every reading is finite or NaN.  It fails: [float()]
    accepts [inf] and rounds [1e999] to infinity, and [read_sensor] passes
    either through. *)
Lemma read_sensor_infinity_counterexample :
  fst (read_sensor py_float 1 (mk_session [ACK; "0,inf"] [] [])) =
    Ok (S754_infinity false) /\
  fst (read_sensor py_float 1 (mk_session [ACK; "0,1e999"] [] [])) =
    Ok (S754_infinity false) /\
  is_finite (S754_infinity false) = false /\ S754_infinity false <> nan.
Proof.
  split; [vm_compute; reflexivity |].
  split; [vm_compute; reflexivity |].
  split; [reflexivity | discriminate].
Qed.

(** C7 (amended): a decoded reading is either NaN or exactly the value
    [float()] gives for the second field of a two-field reply, which may
    be an infinity. *)
Theorem read_sensor_decode_nan_or_float (float : string -> result double)
  (ans : string) :
  read_sensor_decode float ans = nan \/
  exists status value,
    py_split "," ans = [status; value] /\
    float value = Ok (read_sensor_decode float ans).
Proof.
  unfold read_sensor_decode, read_sensor_body.
  destruct (py_split "," ans) as [| x [| y [| z zs]]]; auto.
  destruct (float y) as [r | e] eqn:E; [right; exists x, y; auto | auto].
Qed.

(** ** Claims about the channel mask *)

Lemma sen_command_in_range (c : Z) :
  (1 <= c <= 6)%Z ->
  sen_command c 2 = Ok (sen_payload c 2) /\ sen_command c 1 = Ok (sen_payload c 1).
Proof.
  intros Hc.
  assert (c = 1 \/ c = 2 \/ c = 3 \/ c = 4 \/ c = 5 \/ c = 6)%Z as Hcs by lia.
  destruct Hcs as [-> | [-> | [-> | [-> | [-> | ->]]]]]; split; reflexivity.
Qed.

Lemma sen_command_negative (c : Z) :
  (-5 <= c <= 0)%Z ->
  sen_command c 2 = Ok (sen_payload (c + 6) 2) /\
  sen_command c 1 = Ok (sen_payload (c + 6) 1).
Proof.
  intros Hc.
  assert (c = -5 \/ c = -4 \/ c = -3 \/ c = -2 \/ c = -1 \/ c = 0)%Z as Hcs by lia.
  destruct Hcs as [-> | [-> | [-> | [-> | [-> | ->]]]]]; split; reflexivity.
Qed.

Lemma sen_command_out_of_range (c code : Z) :
  (c >= 7 \/ c <= -6)%Z -> sen_command c code = Err IndexError.
Proof.
  intros Hc. unfold sen_command, py_setitem. rewrite repeat_length.
  destruct (Z.ltb_spec (c - 1) 0) as [Hlt | Hge].
  - replace ((c - 1 + Z.of_nat 6 <? 0)%Z) with true by (symmetry; apply Z.ltb_lt; lia).
    reflexivity.
  - replace ((c - 1 <? 0)%Z) with false by (symmetry; apply Z.ltb_ge; lia).
    replace ((Z.of_nat 6 <=? c - 1)%Z) with true by (symmetry; apply Z.leb_le; lia).
    reflexivity.
Qed.

Lemma enable_sensor_query (c : Z) (cmd : string) :
  sen_command c 2 = Ok cmd -> enable_sensor c = (query cmd ;;; ret tt).
Proof. intros H. unfold enable_sensor. rewrite H. reflexivity. Qed.

Lemma disable_sensor_query (c : Z) (cmd : string) :
  sen_command c 1 = Ok cmd -> disable_sensor c = (query cmd ;;; ret tt).
Proof. intros H. unfold disable_sensor. rewrite H. reflexivity. Qed.

(** C5: for a channel in [1,6] the mask is zero except [2] (enable) or [1]
    (disable) at index [channel - 1], serialized as comma-joined digits,
    and the command sends ["SEN," ++ mask] through [query]; enabling
    channel 4 sends ["SEN,0,0,0,2,0,0"]. *)
Theorem set_channel_mask (c : Z) (enabled : bool) :
  (1 <= c <= 6)%Z ->
  let code := if enabled then 2%Z else 1%Z in
  sen_command c code = Ok (sen_payload c code) /\
  (if enabled then enable_sensor c else disable_sensor c) =
    (query (sen_payload c code) ;;; ret tt) /\
  enable_sensor 4 = (query "SEN,0,0,0,2,0,0" ;;; ret tt).
Proof.
  intros Hc code. destruct (sen_command_in_range c Hc) as [H2 H1].
  split; [| split].
  - destruct enabled; assumption.
  - destruct enabled; [apply enable_sensor_query | apply disable_sensor_query];
      assumption.
  - apply enable_sensor_query. reflexivity.
Qed.

Lemma set_channel_mask_witness :
  (1 <= 4 <= 6)%Z /\
  sen_command 4 2 = Ok "SEN,0,0,0,2,0,0" /\
  enable_sensor 4 = (query "SEN,0,0,0,2,0,0" ;;; ret tt).
Proof.
  assert (Hc : (1 <= 4 <= 6)%Z) by lia.
  destruct (set_channel_mask 4 true Hc) as [H1 [H2 _]].
  split; [exact Hc | split; [exact H1 | exact H2]].
Defined.

(** C6 (as stated): every channel outside [1,6] fails with an index
    error before anything is sent.  It fails at channel 0: index [-1]
    is the last slot in Python, so both commands send a mask. *)
Lemma set_channel_zero_counterexample :
  let s := mk_session [NAK] [] [] in
  fst (enable_sensor 0 s) = Ok tt /\
  sent_lines (io (snd (enable_sensor 0 s))) = ["SEN,0,0,0,0,0,2"] /\
  fst (disable_sensor 0 s) = Ok tt /\
  sent_lines (io (snd (disable_sensor 0 s))) = ["SEN,0,0,0,0,0,1"].
Proof. vm_compute. repeat split. Qed.

(** C6 (amended): a channel of 7 or more, or of -6 or less, makes the
    mask assignment raise [IndexError]; the session is left untouched,
    so no command is sent. *)
Theorem set_channel_out_of_range_index_error (c : Z) (s : session) :
  (c >= 7 \/ c <= -6)%Z ->
  enable_sensor c s = (Err IndexError, s) /\ disable_sensor c s = (Err IndexError, s).
Proof.
  intros Hc. unfold enable_sensor, disable_sensor.
  rewrite !(sen_command_out_of_range c _ Hc). split; reflexivity.
Qed.

Lemma set_channel_out_of_range_index_error_witness :
  (7 >= 7 \/ 7 <= -6)%Z /\
  enable_sensor 7 (mk_session [] [] []) = (Err IndexError, mk_session [] [] []) /\
  disable_sensor 7 (mk_session [] [] []) = (Err IndexError, mk_session [] [] []).
Proof.
  assert (Hc : (7 >= 7 \/ 7 <= -6)%Z) by lia.
  split; [exact Hc |].
  exact (set_channel_out_of_range_index_error 7 (mk_session [] [] []) Hc).
Defined.

(** C9: a channel in [-5,0] does not fail: index [channel - 1] is taken
    from the end of the mask, i.e. the slot of channel [channel + 6], and
    the command is sent; [enable_sensor 0] sends ["SEN,0,0,0,0,0,2"]. *)
Theorem set_channel_negative_index_wraps (c : Z) :
  (-5 <= c <= 0)%Z ->
  enable_sensor c = (query (sen_payload (c + 6) 2) ;;; ret tt) /\
  disable_sensor c = (query (sen_payload (c + 6) 1) ;;; ret tt) /\
  enable_sensor 0 = (query "SEN,0,0,0,0,0,2" ;;; ret tt).
Proof.
  intros Hc. destruct (sen_command_negative c Hc) as [H2 H1].
  split; [apply enable_sensor_query; exact H2 |].
  split; [apply disable_sensor_query; exact H1 |].
  apply enable_sensor_query. reflexivity.
Qed.

Lemma set_channel_negative_index_wraps_witness :
  (-5 <= 0 <= 0)%Z /\ enable_sensor 0 = (query "SEN,0,0,0,0,0,2" ;;; ret tt).
Proof.
  assert (Hc : (-5 <= 0 <= 0)%Z) by lia.
  split; [exact Hc |].
  exact (proj1 (set_channel_negative_index_wraps 0 Hc)).
Defined.

(** ** Determinism of the SEN command *)

Lemma sent_lines_app (t1 t2 : list io_event) :
  sent_lines (t1 ++ t2) = (sent_lines t1 ++ sent_lines t2)%list.
Proof.
  induction t1 as [| ev t1 IH]; simpl; [reflexivity |].
  destruct ev; simpl; rewrite ?IH; reflexivity.
Qed.

(** Every [query] writes exactly its command line, whatever the replies
    (a timeout included). *)
Lemma query_sent_lines (cmd : string) (s : session) :
  sent_lines (io (snd (query cmd s))) = (sent_lines (io s) ++ [cmd])%list.
Proof.
  destruct s as [inb t d].
  unfold query, inst_query.
  unfold bind, debug_stream, error_stream, inst_write, inst_read, inst_write_raw,
    ret, log_io, log_diag.
  cbn -[py_contains hexformat ACK NAK ENQ sent_lines].
  destruct inb as [| ans rest];
    cbn -[py_contains hexformat ACK NAK ENQ sent_lines];
    [rewrite sent_lines_app; reflexivity |].
  destruct (py_contains ACK ans); [destruct rest as [| payload rest] |
    destruct (py_contains NAK ans)];
    cbn -[hexformat ENQ sent_lines]; rewrite !sent_lines_app; simpl;
    rewrite ?app_nil_r; reflexivity.
Qed.

Lemma then_ret_snd (cmd : string) (s : session) :
  snd ((query cmd ;;; ret tt) s) = snd (query cmd s).
Proof. unfold bind, ret. destruct (query cmd s) as [[a | e] s']; reflexivity. Qed.

(** C8: enabling the same channel in [1,6] twice in a row writes the same
    SEN command line twice, whatever the device replies. *)
Theorem enable_twice_same_command (c : Z) (s : session) :
  (1 <= c <= 6)%Z ->
  let s1 := snd (enable_sensor c s) in
  let s2 := snd (enable_sensor c s1) in
  sent_lines (io s2) = (sent_lines (io s) ++ [sen_payload c 2; sen_payload c 2])%list.
Proof.
  intros Hc s1 s2. subst s1 s2.
  destruct (sen_command_in_range c Hc) as [H2 _].
  rewrite (enable_sensor_query c _ H2), !then_ret_snd, !query_sent_lines.
  rewrite <- app_assoc. reflexivity.
Qed.

Lemma enable_twice_same_command_witness :
  (1 <= 4 <= 6)%Z /\
  sent_lines (io (snd (enable_sensor 4 (snd (enable_sensor 4 (mk_session [ACK; "0"] [] []))))))
  = ["SEN,0,0,0,2,0,0"; "SEN,0,0,0,2,0,0"].
Proof.
  assert (Hc : (1 <= 4 <= 6)%Z) by lia.
  split; [exact Hc |].
  exact (enable_twice_same_command 4 (mk_session [ACK; "0"] [] []) Hc).
Defined.

(** * Further properties of the code *)

(** ** [hexformat]: a lossless, printable dump *)

(** Inverse of one hex digit of [hex_digit]. *)
Definition unhex_digit (h : ascii) : N :=
  let n := N_of_ascii h in
  if (n <? 65)%N then (n - 48)%N else (n - 55)%N.

Definition unhex2 (hi lo : ascii) : ascii :=
  ascii_of_N (16 * unhex_digit hi + unhex_digit lo).

(** Reads back the characters of a [hexformat] dump. *)
Fixpoint unhex_rest (t : string) : list ascii :=
  match t with
  | String " " (String hi (String lo r)) => unhex2 hi lo :: unhex_rest r
  | _ => []
  end.

Definition unhexformat (t : string) : list ascii :=
  match t with
  | String hi (String lo r) => unhex2 hi lo :: unhex_rest r
  | _ => []
  end.

Definition hex_alphabet : list ascii := chars "0123456789ABCDEF".

Ltac ascii_cases c :=
  destruct c as [b0 b1 b2 b3 b4 b5 b6 b7];
  destruct b0, b1, b2, b3, b4, b5, b6, b7.

Lemma hex2_spec (c : ascii) :
  exists hi lo, hex2 c = String hi (String lo EmptyString) /\
    unhex2 hi lo = c /\ In hi hex_alphabet /\ In lo hex_alphabet.
Proof.
  exists (hex_digit (N.div (N_of_ascii c) 16)), (hex_digit (N.modulo (N_of_ascii c) 16)).
  split; [reflexivity |].
  ascii_cases c; vm_compute; intuition congruence.
Qed.

Lemma hexformat_cons (c : ascii) (s : string) :
  hexformat (String c s) =
  hex2 c ++ match s with EmptyString => "" | _ => " " ++ hexformat s end.
Proof.
  unfold hexformat, py_join. destruct s as [| c' s].
  - cbn [chars map String.concat]. rewrite append_empty_r. reflexivity.
  - reflexivity.
Qed.

Lemma unhex_rest_hexformat (s : string) :
  s <> EmptyString -> unhex_rest (" " ++ hexformat s) = chars s.
Proof.
  induction s as [| c s IH]; intros Hne; [contradiction |].
  rewrite hexformat_cons.
  destruct (hex2_spec c) as (hi & lo & Hh & Hu & _). rewrite Hh.
  destruct s as [| c' s]; simpl; rewrite Hu; [reflexivity |].
  f_equal. apply IH. discriminate.
Qed.

Lemma unhexformat_hexformat (s : string) : unhexformat (hexformat s) = chars s.
Proof.
  destruct s as [| c s]; [reflexivity |].
  rewrite hexformat_cons.
  destruct (hex2_spec c) as (hi & lo & Hh & Hu & _). rewrite Hh.
  destruct s as [| c' s]; simpl; rewrite Hu; [reflexivity |].
  f_equal. apply unhex_rest_hexformat. discriminate.
Qed.

Lemma chars_inj (s1 s2 : string) : chars s1 = chars s2 -> s1 = s2.
Proof.
  revert s2; induction s1 as [| c s1 IH]; intros [| c' s2]; simpl; intros H;
    try discriminate; [reflexivity |].
  injection H as -> H. f_equal. apply IH, H.
Qed.

(** X: [hexformat] loses nothing: two texts with the same hex dump are
    the same text, so the diagnostic of an unexpected reply identifies it. *)
Theorem hexformat_injective (s1 s2 : string) :
  hexformat s1 = hexformat s2 -> s1 = s2.
Proof.
  intros H. apply chars_inj.
  rewrite <- (unhexformat_hexformat s1), <- (unhexformat_hexformat s2), H.
  reflexivity.
Qed.

Lemma hexformat_injective_witness :
  hexformat (ACK ++ "PR1") = hexformat (ACK ++ "PR1") /\ ACK ++ "PR1" = ACK ++ "PR1".
Proof.
  split; [reflexivity |].
  exact (hexformat_injective (ACK ++ "PR1") (ACK ++ "PR1") eq_refl).
Defined.

(** X: the dump of a non-empty text of [n] characters is [3 n - 1]
    characters long and holds only upper-case hex digits and spaces, so
    invisible control bytes are always shown. *)
Theorem hexformat_shape (s : string) :
  s <> EmptyString ->
  String.length (hexformat s) = 3 * String.length s - 1 /\
  forall x, In x (chars (hexformat s)) -> In x hex_alphabet \/ x = " "%char.
Proof.
  induction s as [| c s IH]; intros Hne; [contradiction |].
  rewrite hexformat_cons.
  destruct (hex2_spec c) as (hi & lo & Hh & _ & Hhi & Hlo). rewrite Hh.
  destruct s as [| c' s].
  - simpl. split; [reflexivity |]. intros x [-> | [-> | []]]; auto.
  - destruct (IH ltac:(discriminate)) as [Hlen Hal]. split.
    + simpl. simpl in Hlen. rewrite Hlen. lia.
    + simpl. intros x [-> | [-> | [-> | Hx]]]; auto. exact (Hal x Hx).
Qed.

Lemma hexformat_shape_witness :
  "???" <> EmptyString /\
  String.length (hexformat "???") = 3 * String.length "???" - 1.
Proof.
  assert (H : "???" <> EmptyString) by discriminate.
  split; [exact H | exact (proj1 (hexformat_shape "???" H))].
Defined.

(** ** [query]: timeouts, diagnostics and the exceptions it can raise *)

Lemma query_run (cmd ans : string) (rest : list string) (t : list io_event)
  (d : list diag) :
  query cmd (mk_session (ans :: rest) t d) =
  let d1 := (d ++ [Debug ("query: " ++ cmd);
                   Debug ("reply: " ++ ans ++ " (" ++ hexformat ans ++ ")")])%list in
  let t1 := (t ++ [Wrote cmd; Got ans])%list in
  if py_contains ACK ans then
    let d2 := (d1 ++ [Debug "Received ACK, proceeding with ENQ"])%list in
    match rest with
    | [] => (Err VisaIOError, mk_session [] (t1 ++ [WroteRaw ENQ]) d2)
    | payload :: rest' =>
        (Ok payload,
         mk_session rest' (t1 ++ [WroteRaw ENQ; Got payload])
           (d2 ++ [Debug ("reply: " ++ payload ++ " (" ++ hexformat payload ++ ")")]))
    end
  else
    (Ok "",
     mk_session rest t1
       (d1 ++ [if py_contains NAK ans
               then Error ("Query resulted in NAK: " ++ cmd)
               else Error ("Did not receive ACK on message, got " ++ hexformat ans
                           ++ " instead")])).
Proof.
  unfold query, inst_query.
  unfold bind, debug_stream, error_stream, inst_write, inst_read, inst_write_raw,
    ret, log_io, log_diag.
  cbn -[py_contains hexformat ACK NAK ENQ].
  destruct (py_contains ACK ans);
    [destruct rest as [| payload rest'] | destruct (py_contains NAK ans)];
    cbn -[hexformat ENQ]; rewrite <- ?app_assoc; reflexivity.
Qed.

(** X: with no reply line at all the transport times out: [query] raises
    [VisaIOError] after writing the command, and nothing else is written. *)
Theorem query_no_reply_timeout (cmd : string) (t : list io_event) (d : list diag) :
  query cmd (mk_session [] t d) =
  (Err VisaIOError, mk_session [] (t ++ [Wrote cmd]) (d ++ [Debug ("query: " ++ cmd)])).
Proof. reflexivity. Qed.

(** X: an ACK with no payload line after the ENQ makes [query] raise
    [VisaIOError]; the ENQ byte has been sent by then. *)
Theorem query_ack_without_payload_timeout (cmd ans : string) (t : list io_event)
  (d : list diag) :
  py_contains ACK ans = true ->
  fst (query cmd (mk_session [ans] t d)) = Err VisaIOError /\
  io (snd (query cmd (mk_session [ans] t d))) = (t ++ [Wrote cmd; Got ans; WroteRaw ENQ])%list.
Proof.
  intros Hack. rewrite query_run. cbn zeta. rewrite Hack. simpl.
  rewrite <- app_assoc. split; reflexivity.
Qed.

Lemma query_ack_without_payload_timeout_witness :
  py_contains ACK ACK = true /\
  fst (query "PR1" (mk_session [ACK] [] [])) = Err VisaIOError.
Proof.
  split; [reflexivity |].
  exact (proj1 (query_ack_without_payload_timeout "PR1" ACK [] [] eq_refl)).
Defined.






(** ** [read_sensor] and the pressure attributes *)

(** [read_pressure1] ... [read_pressure6]: each attribute reader returns
    [self.read_sensor(n)] for its channel. *)
Definition read_pressure1 (float : string -> result double) : M double := read_sensor float 1.
Definition read_pressure2 (float : string -> result double) : M double := read_sensor float 2.
Definition read_pressure3 (float : string -> result double) : M double := read_sensor float 3.
Definition read_pressure4 (float : string -> result double) : M double := read_sensor float 4.
Definition read_pressure5 (float : string -> result double) : M double := read_sensor float 5.
Definition read_pressure6 (float : string -> result double) : M double := read_sensor float 6.

Lemma read_sensor_sent_lines (float : string -> result double) (ch : Z) (s : session) :
  sent_lines (io (snd (read_sensor float ch s))) =
  (sent_lines (io s) ++ [String.append "PR" (py_str ch)])%list.
Proof.
  unfold read_sensor, bind, ret.
  rewrite <- query_sent_lines.
  destruct (query ("PR" ++ py_str ch) s) as [[a | e] s']; reflexivity.
Qed.

(** X: reading pressure attribute [n] writes exactly one command line,
    ["PRn"], whatever the device replies. *)
Theorem read_pressure_commands (float : string -> result double) (s : session) :
  sent_lines (io (snd (read_pressure1 float s))) = (sent_lines (io s) ++ ["PR1"])%list /\
  sent_lines (io (snd (read_pressure2 float s))) = (sent_lines (io s) ++ ["PR2"])%list /\
  sent_lines (io (snd (read_pressure3 float s))) = (sent_lines (io s) ++ ["PR3"])%list /\
  sent_lines (io (snd (read_pressure4 float s))) = (sent_lines (io s) ++ ["PR4"])%list /\
  sent_lines (io (snd (read_pressure5 float s))) = (sent_lines (io s) ++ ["PR5"])%list /\
  sent_lines (io (snd (read_pressure6 float s))) = (sent_lines (io s) ++ ["PR6"])%list.
Proof.
  unfold read_pressure1, read_pressure2, read_pressure3, read_pressure4,
    read_pressure5, read_pressure6.
  repeat split; apply read_sensor_sent_lines.
Qed.

(** X: the status token is ignored: two one-comma replies with the same
    second field decode to the same reading. *)
Theorem read_sensor_ignores_status (float : string -> result double)
  (status1 status2 value : string) :
  ~ In ","%char (chars status1) -> ~ In ","%char (chars status2) ->
  ~ In ","%char (chars value) ->
  read_sensor_decode float (status1 ++ "," ++ value) =
  read_sensor_decode float (status2 ++ "," ++ value).
Proof.
  intros H1 H2 Hv. unfold read_sensor_decode, read_sensor_body.
  rewrite (py_split_two_fields _ _ H1 Hv), (py_split_two_fields _ _ H2 Hv).
  reflexivity.
Qed.

Lemma read_sensor_ignores_status_witness :
  (~ In ","%char (chars "0") /\ ~ In ","%char (chars "5") /\
   ~ In ","%char (chars "1.5E-3")) /\
  read_sensor_decode py_float ("0" ++ "," ++ "1.5E-3") =
  read_sensor_decode py_float ("5" ++ "," ++ "1.5E-3").
Proof.
  assert (H1 : ~ In ","%char (chars "0")) by no_comma.
  assert (H2 : ~ In ","%char (chars "5")) by no_comma.
  assert (Hv : ~ In ","%char (chars "1.5E-3")) by no_comma.
  split; [tauto | exact (read_sensor_ignores_status py_float _ _ _ H1 H2 Hv)].
Defined.



(** ** [enable_sensor] / [disable_sensor] *)

(** X: the mask assignment succeeds exactly for channels -5 to 6 and
    raises [IndexError] for every other channel, whatever the code. *)
Theorem sen_command_domain (c code : Z) :
  ((exists cmd, sen_command c code = Ok cmd) <-> (-5 <= c <= 6)%Z) /\
  (~ (-5 <= c <= 6)%Z -> sen_command c code = Err IndexError).
Proof.
  assert (Hout : ~ (-5 <= c <= 6)%Z -> sen_command c code = Err IndexError)
    by (intros H; apply sen_command_out_of_range; lia).
  split; [| exact Hout]. split.
  - intros [cmd Hc]. destruct (Z.le_gt_cases (-5) c); [destruct (Z.le_gt_cases c 6) |];
      try lia; rewrite Hout in Hc by lia; discriminate.
  - intros Hc.
    assert (c = -5 \/ c = -4 \/ c = -3 \/ c = -2 \/ c = -1 \/ c = 0 \/
            c = 1 \/ c = 2 \/ c = 3 \/ c = 4 \/ c = 5 \/ c = 6)%Z as Hcs by lia.
    repeat (destruct Hcs as [-> | Hcs]; [eexists; reflexivity |]).
    subst. eexists. reflexivity.
Qed.

(** X: the commands do not inspect the device's answer: for a channel in
    [1,6], with a reply and a payload line available, [enable_sensor] and
    [disable_sensor] return normally whatever the replies are (a NAK or
    garbage included). *)
Theorem set_channel_ignores_reply (c : Z) (s : session) :
  (1 <= c <= 6)%Z -> 2 <= List.length (inbox s) ->
  fst (enable_sensor c s) = Ok tt /\ fst (disable_sensor c s) = Ok tt.
Proof.
  intros Hc Hlen. destruct (sen_command_in_range c Hc) as [H2 H1].
  rewrite (enable_sensor_query c _ H2), (disable_sensor_query c _ H1).
  destruct s as [[| ans [| p rest]] t d]; simpl in Hlen; try lia.
  unfold bind. rewrite !query_run. cbn zeta.
  destruct (py_contains ACK ans); split; reflexivity.
Qed.

Lemma set_channel_ignores_reply_witness :
  ((1 <= 2 <= 6)%Z /\ 2 <= List.length (inbox (mk_session [NAK; "x"] [] []))) /\
  fst (enable_sensor 2 (mk_session [NAK; "x"] [] [])) = Ok tt.
Proof.
  assert (Hc : (1 <= 2 <= 6)%Z) by lia.
  assert (Hl : 2 <= List.length (inbox (mk_session [NAK; "x"] [] []))) by (simpl; lia).
  split; [split; assumption |].
  exact (proj1 (set_channel_ignores_reply 2 _ Hc Hl)).
Defined.
